(** * Checklist: selection model, item renderer and container

    A shallow embedding of [src/components/input/Checklist.js]: the
    component's [listItem] and [render] methods, the two [onChange]
    closures, and the library functions they call ([contains], [without]
    and [append] of ramda, [classNames], object spread and React's
    [createElement]). *)

From stdpp Require Import base option list strings gmap.

Local Open Scope string_scope.
Local Open Scope list_scope.
Local Open Scope Z_scope.
Set Warnings "-register-all".

(** ** JavaScript values *)

(** ECMAScript numbers up to what [===] can tell apart, plus the sign of
    zero.  A finite non-zero double is a dyadic rational
    [±(2k+1)·2^e]; writing the odd mantissa as [2k+1] makes the
    representation canonical, so that two such numbers are [===] exactly
    when their fields are equal.  The range limits of binary64 play no
    role in this component. *)
Inductive number : Type :=
| NaN
| Infinity (negative : bool)
| Zero (negative : bool)
| Finite (negative : bool) (k : N) (e : Z).

(** [PropTypes.oneOfType([PropTypes.string, PropTypes.number])]: the type
    of option values, option labels and selection entries. *)
Inductive primitive : Type :=
| Num (n : number)
| Str (s : string).

#[global] Instance number_eq_dec : EqDecision number.
Proof. solve_decision. Defined.

#[global] Instance primitive_eq_dec : EqDecision primitive.
Proof. solve_decision. Defined.

Inductive js_type : Type := TNumber | TString.

Definition typeof (x : primitive) : js_type :=
  match x with
  | Num _ => TNumber
  | Str _ => TString
  end.

(** [x === y] on numbers: [NaN] differs from everything, itself
    included, and the two zeros are equal. *)
Definition number_strict_equals (x y : number) : bool :=
  match x, y with
  | NaN, _ | _, NaN => false
  | Zero _, Zero _ => true
  | _, _ => bool_decide (x = y)
  end.

(** [x === y]: no conversion between types. *)
Definition strict_equals (x y : primitive) : bool :=
  match x, y with
  | Num a, Num b => number_strict_equals a b
  | Str a, Str b => bool_decide (a = b)
  | _, _ => false
  end.

(** [1 / x] at a zero [x]: the infinity of the same sign.  ramda divides
    only after it has checked [x === 0]. *)
Definition one_over_zero (negative : bool) : number := Infinity negative.

(** The integer [z] as a number: [0] is [+0], and any other integer is
    split into its odd part and a power of two. *)
Fixpoint odd_part (p : positive) : N * Z :=
  match p with
  | xH => (0%N, 0)
  | xI q => (Npos q, 0)
  | xO q => let '(k, e) := odd_part q in (k, e + 1)
  end.

Definition of_Z (z : Z) : number :=
  match z with
  | Z0 => Zero false
  | Zpos p => let '(k, e) := odd_part p in Finite false k e
  | Zneg p => let '(k, e) := odd_part p in Finite true k e
  end.

Definition int (z : Z) : primitive := Num (of_Z z).

(** ** ramda (imported at Checklist.js:3)

    The definitions of this section follow ramda's own sources
    ([internal/_indexOf.js], [_includes.js], [_filter.js], [_concat.js],
    [contains.js], [reject.js], [without.js], [append.js]), restricted to
    arrays of strings and numbers. *)
Module R.

(** [while (idx < list.length) { item = list[idx]; if (p(item)) return
    idx; idx += 1; } return -1;], with [i] the position of the head of
    [lst] (the array, called [list] in ramda). *)
Fixpoint crawl (p : primitive → bool) (lst : list primitive) (i idx : nat) : Z :=
  match lst with
  | [] => -1
  | item :: rest =>
      if bool_decide (idx ≤ i)%nat && p item then Z.of_nat i
      else crawl p rest (S i) idx
  end.

(** [Array.prototype.indexOf(a, idx)]: the first position from [idx] on
    that is [===] to [a]. *)
Definition Array_indexOf (lst : list primitive) (a : primitive) (idx : nat) : Z :=
  crawl (λ item, strict_equals item a) lst 0 idx.

(** [_indexOf(list, a, idx)]: a zero is searched by hand to tell [+0]
    from [-0], [NaN] is searched by hand because it is not [===] to
    itself, anything else goes to [list.indexOf]. *)
Definition _indexOf (lst : list primitive) (a : primitive) (idx : nat) : Z :=
  match a with
  | Num (Zero negative) =>
      let inf := one_over_zero negative in
      crawl (λ item, match item with
                     | Num (Zero s) => number_strict_equals (one_over_zero s) inf
                     | _ => false
                     end) lst 0 idx
  | Num NaN =>
      crawl (λ item, match item with
                     | Num n => negb (number_strict_equals n n)
                     | Str _ => false
                     end) lst 0 idx
  | Num _ => Array_indexOf lst a idx
  | Str _ => Array_indexOf lst a idx
  end.

Definition _includes (a : primitive) (lst : list primitive) : bool :=
  bool_decide (0 ≤ _indexOf lst a 0).

Definition contains (a : primitive) (lst : list primitive) : bool :=
  _includes a lst.

(** [_filter(fn, list)] pushes the elements that pass [fn] onto a new
    array, in order. *)
Fixpoint _filter (fn : primitive → bool) (lst : list primitive) : list primitive :=
  match lst with
  | [] => []
  | x :: rest => if fn x then x :: _filter fn rest else _filter fn rest
  end.

Definition _complement (f : primitive → bool) : primitive → bool :=
  λ x, negb (f x).

Definition reject (pred : primitive → bool) (filterable : list primitive) : list primitive :=
  _filter (_complement pred) filterable.

Definition flip {A B C} (fn : A → B → C) : B → A → C := λ b a, fn a b.

Definition without (xs lst : list primitive) : list primitive :=
  reject (flip _includes xs) lst.

(** [_concat(set1, set2)] copies both arrays into a new one. *)
Definition _concat (set1 set2 : list primitive) : list primitive := set1 ++ set2.

Definition append (el : primitive) (lst : list primitive) : list primitive :=
  _concat lst [el].

End R.


(** ** Style objects, class names and React elements *)

(** A style object: own enumerable string keys with primitive values. *)
Abbreviation object := (gmap string primitive).

(** [{...a, ...b}]: the own properties of each source are copied in
    turn onto a new object, so a later source overwrites an earlier one;
    spreading [undefined] copies nothing. *)
Definition object_spread (sources : list (option object)) : object :=
  foldl (λ target source,
           match source with
           | Some o => o ∪ target
           | None => target
           end) ∅ sources.

(** The arguments this component gives to [classNames] are strings,
    [false] and [undefined]; [None] stands for the last two. *)
Abbreviation class_arg := (option string).

(** [b && s] for a boolean [b] whose falsy value is dropped by
    [classNames] anyway. *)
Definition and_class (b : bool) (s : class_arg) : class_arg :=
  if b then s else None.

(** [classNames(...args)]: falsy arguments (the empty string among them)
    are skipped, the others are joined with single spaces. *)
Definition classNames (args : list class_arg) : string :=
  String.concat " "
    (omap (λ arg, match arg with
                  | Some "" => None
                  | other => other
                  end) args).

(** What a prop can hold here.  The [onChange] closures take no argument
    and read only the props of the render that made them, so a closure
    is given by the [value] field of the object it hands to [setProps]
    when it is called. *)
Inductive jsval : Type :=
| JUndefined
| JBool (b : bool)
| JPrim (x : primitive)
| JObject (o : object)
| JFunction (setProps_value : list primitive).

#[global] Instance jsval_eq_dec : EqDecision jsval.
Proof. solve_decision. Defined.

Definition JString (s : string) : jsval := JPrim (Str s).

Definition of_optional {A} (f : A → jsval) (x : option A) : jsval :=
  match x with
  | Some a => f a
  | None => JUndefined
  end.

(** [ToBoolean]. *)
Definition truthy (v : jsval) : bool :=
  match v with
  | JUndefined => false
  | JBool b => b
  | JPrim (Str s) => negb (bool_decide (s = ""))
  | JPrim (Num NaN) | JPrim (Num (Zero _)) => false
  | JPrim (Num _) => true
  | JObject _ | JFunction _ => true
  end.

(** [a && b] and [a || b], for operands without effects. *)
Definition js_and (a b : jsval) : jsval := if truthy a then b else a.
Definition js_or (a b : jsval) : jsval := if truthy a then a else b.

Inductive element_type : Type :=
| host (tag : string)
| CustomInput.

#[global] Instance element_type_eq_dec : EqDecision element_type.
Proof. solve_decision. Defined.

Inductive node : Type :=
| Text (x : primitive)
| Element (type : element_type) (key : jsval) (props : gmap string jsval)
          (children : list node).

(** An object literal: the fields are defined in source order, so of two
    fields with one name the later one stays. *)
Definition object_literal (fields : list (string * jsval)) : gmap string jsval :=
  foldl (λ o field, <[field.1 := field.2]> o) ∅ fields.

(** [React.createElement(type, config, ...children)], to which a JSX tag
    compiles with its attributes as the object literal [config]: [key]
    is taken out of the props (and kept here as it was given; React
    makes a string of it). *)
Definition createElement (type : element_type) (config : list (string * jsval))
    (children : list node) : node :=
  let config := object_literal config in
  Element type (default JUndefined (config !! "key")) (delete "key" config) children.

Definition element_props (n : node) : gmap string jsval :=
  match n with
  | Element _ _ props _ => props
  | Text _ => ∅
  end.

Definition element_is (t : element_type) (n : node) : bool :=
  match n with
  | Element type _ _ _ => bool_decide (type = t)
  | Text _ => false
  end.

(** ** The component's props *)

Module Option.
Record t : Type := {
  label : primitive;
  value : primitive;
  disabled : option bool
}.
End Option.

Record LoadingState : Type := {
  is_loading : option bool;
  prop_name : option string;
  component_name : option string
}.

(** [this.props], after [Checklist.defaultProps] has filled in the props
    that have a default; a prop without one may be [undefined].
    [setProps] is left out: its calls are what [JFunction] records. *)
Module Props.
Record t : Type := {
  id : option string;
  options : list Option.t;
  value : list primitive;
  className : option string;
  style : option object;
  key : option string;
  inputStyle : object;
  inputClassName : string;
  labelStyle : object;
  labelCheckedStyle : option object;
  labelClassName : string;
  labelCheckedClassName : option string;
  inline : option bool;
  switch : option bool;
  custom : bool;
  loading_state : option LoadingState
}.
End Props.

(** [Checklist.defaultProps], every other prop being [undefined]. *)
Definition defaultProps : Props.t :=
  {| Props.id := None; Props.options := []; Props.value := [];
     Props.className := None; Props.style := None; Props.key := None;
     Props.inputStyle := ∅; Props.inputClassName := "";
     Props.labelStyle := ∅; Props.labelCheckedStyle := None;
     Props.labelClassName := ""; Props.labelCheckedClassName := None;
     Props.inline := None; Props.switch := None; Props.custom := true;
     Props.loading_state := None |}.

(** ** [listItem] (Checklist.js:20-105) *)

(** Line 36. *)
Definition checked (opt : Option.t) (value : list primitive) : bool :=
  R.contains (Option.value opt) value.

(** Lines 38-40. *)
Definition mergedLabelStyle (this_props : Props.t) (opt : Option.t) : object :=
  if checked opt (Props.value this_props)
  then object_spread [Some (Props.labelStyle this_props);
                      Props.labelCheckedStyle this_props]
  else Props.labelStyle this_props.

(** Lines 57-65, the closure given to [CustomInput]: the value is the
    [newValue] of [setProps({value: newValue})]. *)
Definition onChange_custom (opt : Option.t) (value : list primitive) : list primitive :=
  if R.contains (Option.value opt) value
  then R.without [Option.value opt] value
  else R.append (Option.value opt) value.

(** Lines 81-89, the closure given to the native [<input>]. *)
Definition onChange_native (opt : Option.t) (value : list primitive) : list primitive :=
  if R.contains (Option.value opt) value
  then R.without [Option.value opt] value
  else R.append (Option.value opt) value.

(** [Boolean(option.disabled)]. *)
Definition Boolean (x : option bool) : bool := truthy (of_optional JBool x).

(** Line 119, [(loading_state && loading_state.is_loading) || undefined]:
    an object is truthy, so [&&] yields its right operand when
    [loading_state] is there, and [undefined] when it is not. *)
Definition data_dash_is_loading (loading_state : option LoadingState) : jsval :=
  js_or (match loading_state with
         | Some state => of_optional JBool (is_loading state)
         | None => JUndefined
         end)
        JUndefined.

Section Checklist.

(** [Number::toString], which the template literal of line 45 applies
    to a numeric option value. *)
Variable Number_toString : number → string.

Definition ToString (x : primitive) : string :=
  match x with
  | Num n => Number_toString n
  | Str s => s
  end.

Definition listItem (this_props : Props.t) (opt : Option.t) : node :=
  let id := Props.id this_props in
  let inputClassName := Props.inputClassName this_props in
  let inputStyle := Props.inputStyle this_props in
  let labelClassName := Props.labelClassName this_props in
  let labelCheckedClassName := Props.labelCheckedClassName this_props in
  let inline := Props.inline this_props in
  let value := Props.value this_props in
  let custom := Props.custom this_props in
  let switches := Props.switch this_props in
  let checked := checked opt value in
  let mergedLabelStyle := mergedLabelStyle this_props opt in
  if truthy (js_and (of_optional JString id) (JBool custom)) then
    createElement CustomInput
      [ ("id", JString ("_" +:+ default "" id +:+ "-" +:+ ToString (Option.value opt)));
        ("checked", JBool checked);
        ("className", JString inputClassName);
        ("disabled", JBool (Boolean (Option.disabled opt)));
        ("type", JString (if truthy (of_optional JBool switches)
                          then "switch" else "checkbox"));
        ("label", JPrim (Option.label opt));
        ("labelStyle", JObject mergedLabelStyle);
        ("className", JString (classNames
                                 [Some labelClassName;
                                  and_class checked labelCheckedClassName]));
        ("inline", of_optional JBool inline);
        ("onChange", JFunction (onChange_custom opt value));
        ("key", JPrim (Option.value opt)) ]
      []
  else
    createElement (host "div")
      [ ("className", JString (classNames
                                 [Some "form-check";
                                  and_class (truthy (of_optional JBool inline))
                                            (Some "form-check-inline")]));
        ("key", JPrim (Option.value opt)) ]
      [ createElement (host "input")
          [ ("checked", JBool checked);
            ("className", JString (classNames [Some "form-check-input";
                                               Some inputClassName]));
            ("disabled", JBool (Boolean (Option.disabled opt)));
            ("style", JObject inputStyle);
            ("type", JString "checkbox");
            ("onChange", JFunction (onChange_native opt value)) ]
          [];
        createElement (host "label")
          [ ("style", JObject mergedLabelStyle);
            ("className", JString (classNames
                                     [Some "form-check-label";
                                      Some labelClassName;
                                      and_class checked labelCheckedClassName]));
            ("key", JPrim (Option.value opt)) ]
          [ Text (Option.label opt) ] ].

(** Lines 107-125. *)
Definition render (this_props : Props.t) : node :=
  let items := map (λ opt, listItem this_props opt) (Props.options this_props) in
  createElement (host "div")
    [ ("id", of_optional JString (Props.id this_props));
      ("style", of_optional JObject (Props.style this_props));
      ("className", of_optional JString (Props.className this_props));
      ("key", of_optional JString (Props.key this_props));
      ("data-dash-is-loading",
        data_dash_is_loading (Props.loading_state this_props)) ]
    items.

End Checklist.

(** The [onChange] closure of a rendered item, wherever the item keeps
    it: in the props of the [CustomInput], or in those of the [<input>]
    that is the first child of the native [<div>]. *)
Definition item_onChange (item : node) : option jsval :=
  match item with
  | Element CustomInput _ props _ => props !! "onChange"
  | Element (host _) _ _ (input :: _) => element_props input !! "onChange"
  | _ => None
  end.

(** ** The same closure over a store of arrays

    A JavaScript array is a mutable object that the caller and the
    component share by reference.  To say that the caller's array is not
    written, the [onChange] closure and the ramda functions under it are
    given a second time over an explicit store, with ramda's loops
    spelled out: every array lives in a cell, [value] is the address of
    the caller's one, and the only write is [result[result.length] = x]. *)
Module Store.

Definition loc : Type := nat.

(** The arrays allocated so far; an address is a position in it. *)
Abbreviation store := (list (list primitive)).

(** A computation reads and writes the store and may get stuck, on an
    address that was never allocated or an index out of range. *)
Definition M (A : Type) : Type := store → option (A * store).

Definition ret {A} (a : A) : M A := λ σ, Some (a, σ).

Definition bind {A B} (m : M A) (k : A → M B) : M B :=
  λ σ, match m σ with
       | Some (a, σ') => k a σ'
       | None => None
       end.

Notation "'let*' x ':=' m 'in' k" := (bind m (λ x, k))
  (at level 10, x name, m at level 100, k at level 200, only parsing).

(** An array literal, [[]] included: a new cell. *)
Definition array_literal (xs : list primitive) : M loc :=
  λ σ, Some (length σ, σ ++ [xs]).

Definition read (l : loc) : M (list primitive) :=
  λ σ, match σ !! l with
       | Some xs => Some (xs, σ)
       | None => None
       end.

(** [l.length] *)
Definition array_length (l : loc) : M nat :=
  let* xs := read l in ret (length xs).

(** [l[idx]], for [idx] below the length *)
Definition array_get (l : loc) (idx : nat) : M primitive :=
  let* xs := read l in
  λ σ, match xs !! idx with
       | Some x => Some (x, σ)
       | None => None
       end.

(** [l[l.length] = x] *)
Definition array_set_end (l : loc) (x : primitive) : M unit :=
  let* xs := read l in
  λ σ, Some (tt, <[l := xs ++ [x]]> σ).

(** [_indexOf] only reads its array. *)
Definition _includes (a : primitive) (lst : loc) : M bool :=
  let* xs := read lst in ret (R._includes a xs).

Definition contains (a : primitive) (lst : loc) : M bool := _includes a lst.

(** The loop of [_filter], with [n] iterations left:
    [while (idx < len) { if (fn(list[idx])) { result[result.length] =
    list[idx]; } idx += 1; }] *)
Fixpoint _filter_loop (fn : primitive → M bool) (lst result : loc)
    (idx n : nat) : M unit :=
  match n with
  | O => ret tt
  | S n' =>
      let* item := array_get lst idx in
      let* keep := fn item in
      let* _ := (if keep then array_set_end result item else ret tt) in
      _filter_loop fn lst result (S idx) n'
  end.

Definition _filter (fn : primitive → M bool) (lst : loc) : M loc :=
  let* len := array_length lst in
  let* result := array_literal [] in
  let* _ := _filter_loop fn lst result 0 len in
  ret result.

Definition _complement (f : primitive → M bool) : primitive → M bool :=
  λ x, let* b := f x in ret (negb b).

Definition reject (pred : primitive → M bool) (filterable : loc) : M loc :=
  _filter (_complement pred) filterable.

Definition without (xs lst : loc) : M loc :=
  reject (R.flip _includes xs) lst.

(** A loop of [_concat], with [n] iterations left:
    [while (idx < len) { result[result.length] = set[idx]; idx += 1; }] *)
Fixpoint _concat_loop (set result : loc) (idx n : nat) : M unit :=
  match n with
  | O => ret tt
  | S n' =>
      let* item := array_get set idx in
      let* _ := array_set_end result item in
      _concat_loop set result (S idx) n'
  end.

Definition _concat (set1 set2 : loc) : M loc :=
  let* len1 := array_length set1 in
  let* len2 := array_length set2 in
  let* result := array_literal [] in
  let* _ := _concat_loop set1 result 0 len1 in
  let* _ := _concat_loop set2 result 0 len2 in
  ret result.

Definition append (el : primitive) (lst : loc) : M loc :=
  let* single := array_literal [el] in
  _concat lst single.

(** Lines 57-65 and 81-89; the result is the address that goes to
    [setProps] as [value]. *)
Definition onChange (opt : Option.t) (value : loc) : M loc :=
  let* member := contains (Option.value opt) value in
  if member
  then let* xs := array_literal [Option.value opt] in
       without xs value
  else append (Option.value opt) value.

End Store.

(** ** Sample inputs *)

Definition option_A : Option.t :=
  {| Option.label := Str "A"; Option.value := int 1; Option.disabled := None |}.

Definition option_B : Option.t :=
  {| Option.label := Str "B"; Option.value := int 2; Option.disabled := None |}.

(** [this.props] with another [switch]. *)
Definition with_switch (switches : option bool) (p : Props.t) : Props.t :=
  {| Props.id := Props.id p; Props.options := Props.options p;
     Props.value := Props.value p; Props.className := Props.className p;
     Props.style := Props.style p; Props.key := Props.key p;
     Props.inputStyle := Props.inputStyle p;
     Props.inputClassName := Props.inputClassName p;
     Props.labelStyle := Props.labelStyle p;
     Props.labelCheckedStyle := Props.labelCheckedStyle p;
     Props.labelClassName := Props.labelClassName p;
     Props.labelCheckedClassName := Props.labelCheckedClassName p;
     Props.inline := Props.inline p; Props.switch := switches;
     Props.custom := Props.custom p;
     Props.loading_state := Props.loading_state p |}.

(** [<Checklist id=... custom=... inputClassName=... labelClassName=...
    options=... value=... />]: the other props are as in
    [defaultProps]. *)
Definition checklist (id : option string) (custom : bool)
    (inputClassName labelClassName : string)
    (options : list Option.t) (value : list primitive) : Props.t :=
  {| Props.id := id; Props.options := options; Props.value := value;
     Props.className := None; Props.style := None; Props.key := None;
     Props.inputStyle := ∅; Props.inputClassName := inputClassName;
     Props.labelStyle := ∅; Props.labelCheckedStyle := None;
     Props.labelClassName := labelClassName;
     Props.labelCheckedClassName := None;
     Props.inline := None; Props.switch := None; Props.custom := custom;
     Props.loading_state := None |}.

(** [{labelStyle: base, labelCheckedStyle: overlay, value: value}] over
    [defaultProps]. *)
Definition styled (base : object) (overlay : option object)
    (value : list primitive) : Props.t :=
  {| Props.id := None; Props.options := []; Props.value := value;
     Props.className := None; Props.style := None; Props.key := None;
     Props.inputStyle := ∅; Props.inputClassName := "";
     Props.labelStyle := base; Props.labelCheckedStyle := overlay;
     Props.labelClassName := ""; Props.labelCheckedClassName := None;
     Props.inline := None; Props.switch := None; Props.custom := true;
     Props.loading_state := None |}.

(** A [Number::toString] for the examples: right on the integers [0] to
    [9], which is all they print. *)
Definition digit_toString (n : number) : string :=
  match n with
  | Zero _ => "0"
  | Finite false 0 0 => "1"
  | Finite false 0 1 => "2"
  | Finite false 1 0 => "3"
  | Finite false 0 2 => "4"
  | Finite false 2 0 => "5"
  | Finite false 1 1 => "6"
  | Finite false 3 0 => "7"
  | Finite false 0 3 => "8"
  | Finite false 4 0 => "9"
  | _ => "NaN"
  end.

(** ** Reading a rendered tree *)

Definition element_key (n : node) : jsval :=
  match n with
  | Element _ key _ _ => key
  | Text _ => JUndefined
  end.


(** The props of the control of a rendered item: those of the
    [CustomInput], or those of the [<input>] in the native [<div>]. *)
Definition item_control (item : node) : gmap string jsval :=
  match item with
  | Element CustomInput _ props _ => props
  | Element (host _) _ _ (input :: _) => element_props input
  | _ => ∅
  end.

(** What a rendered item shows as its label: the [label] prop of the
    [CustomInput], or the text in the [<label>] that is the second child
    of the native [<div>]. *)
Definition item_label (item : node) : option jsval :=
  match item with
  | Element CustomInput _ props _ => props !! "label"
  | Element (host _) _ _ [_; Element _ _ _ [Text x]] => Some (JPrim x)
  | _ => None
  end.

(** [this.props] with another [inputStyle] and [inputClassName]. *)
Definition with_input (inputStyle : object) (inputClassName : string)
    (p : Props.t) : Props.t :=
  {| Props.id := Props.id p; Props.options := Props.options p;
     Props.value := Props.value p; Props.className := Props.className p;
     Props.style := Props.style p; Props.key := Props.key p;
     Props.inputStyle := inputStyle;
     Props.inputClassName := inputClassName;
     Props.labelStyle := Props.labelStyle p;
     Props.labelCheckedStyle := Props.labelCheckedStyle p;
     Props.labelClassName := Props.labelClassName p;
     Props.labelCheckedClassName := Props.labelCheckedClassName p;
     Props.inline := Props.inline p; Props.switch := Props.switch p;
     Props.custom := Props.custom p;
     Props.loading_state := Props.loading_state p |}.

(** [this.props] with another [labelCheckedStyle] and
    [labelCheckedClassName]. *)
Definition with_checked_label (labelCheckedStyle : option object)
    (labelCheckedClassName : option string) (p : Props.t) : Props.t :=
  {| Props.id := Props.id p; Props.options := Props.options p;
     Props.value := Props.value p; Props.className := Props.className p;
     Props.style := Props.style p; Props.key := Props.key p;
     Props.inputStyle := Props.inputStyle p;
     Props.inputClassName := Props.inputClassName p;
     Props.labelStyle := Props.labelStyle p;
     Props.labelCheckedStyle := labelCheckedStyle;
     Props.labelClassName := Props.labelClassName p;
     Props.labelCheckedClassName := labelCheckedClassName;
     Props.inline := Props.inline p; Props.switch := Props.switch p;
     Props.custom := Props.custom p;
     Props.loading_state := Props.loading_state p |}.

(** The option with another [disabled]. *)
Definition with_disabled (disabled : option bool) (opt : Option.t) : Option.t :=
  {| Option.label := Option.label opt; Option.value := Option.value opt;
     Option.disabled := disabled |}.

(** * Properties *)

Example digit_toString_0_9 :
  map (λ z, digit_toString (of_Z z)) [0; 1; 2; 3; 4; 5; 6; 7; 8; 9]
  = ["0"; "1"; "2"; "3"; "4"; "5"; "6"; "7"; "8"; "9"].
Proof. reflexivity. Qed.

(** ** ramda's membership test is membership *)

Lemma number_strict_equals_true (x y : number) :
  number_strict_equals x y = true ↔
  (x = y ∧ x ≠ NaN) ∨ (∃ s t, x = Zero s ∧ y = Zero t).
Proof.
  destruct x, y; simpl; rewrite ?bool_decide_eq_true; split;
    first [ discriminate
          | intros [[? ?]|(? & ? & ? & ?)]; congruence
          | intros ->; left; split; congruence
          | intros _; right; eauto
          | intros _; done ].
Qed.

(** The hand-written search for a zero finds the zero of that sign. *)
Lemma zero_test_spec (negative : bool) (item : primitive) :
  match item with
  | Num (Zero s) =>
      number_strict_equals (one_over_zero s) (one_over_zero negative)
  | _ => false
  end = true ↔ item = Num (Zero negative).
Proof.
  destruct item as [[| |s|]|]; simpl; try (split; [discriminate | congruence]).
  unfold one_over_zero. rewrite bool_decide_eq_true. split; congruence.
Qed.

(** The hand-written search for [NaN] finds [NaN]. *)
Lemma nan_test_spec (item : primitive) :
  match item with
  | Num n => negb (number_strict_equals n n)
  | Str _ => false
  end = true ↔ item = Num NaN.
Proof.
  destruct item as [n|]; [|split; [discriminate | congruence]].
  rewrite negb_true_iff. destruct n; simpl;
    rewrite ?bool_decide_eq_false; split; congruence.
Qed.

(** Away from zero and [NaN], [===] is equality. *)
Lemma strict_equals_spec (item a : primitive) :
  (∀ s, a ≠ Num (Zero s)) → a ≠ Num NaN →
  strict_equals item a = true ↔ item = a.
Proof.
  intros Hzero Hnan. destruct item as [x|x], a as [y|y]; simpl;
    try (split; [discriminate | congruence]).
  - rewrite number_strict_equals_true. split.
    + intros [[-> _]|(s & t & -> & ->)]; [done | by destruct (Hzero t)].
    + intros [= ->]. left. split; [done | congruence].
  - rewrite bool_decide_eq_true. split; congruence.
Qed.

Lemma crawl_found (p : primitive → bool) (lst : list primitive) (i idx : nat) :
  (idx ≤ i)%nat →
  0 ≤ R.crawl p lst i idx ↔ ∃ item, item ∈ lst ∧ p item = true.
Proof.
  revert i. induction lst as [|x rest IH]; intros i Hi; simpl.
  - split; [lia | intros (item & Hin & _); by apply elem_of_nil in Hin].
  - rewrite bool_decide_true by done. simpl. destruct (p x) eqn:Hpx.
    + split; [|lia]. intros _. exists x. split; [left | done].
    + rewrite IH by lia. split.
      * intros (item & Hin & Hp). exists item. split; [by right | done].
      * intros (item & Hin & Hp). apply elem_of_cons in Hin as [->|Hin];
          [congruence | eauto].
Qed.

Lemma crawl_for (p : primitive → bool) (a : primitive) (lst : list primitive) :
  (∀ item, p item = true ↔ item = a) →
  0 ≤ R.crawl p lst 0 0 ↔ a ∈ lst.
Proof.
  intros Hp. rewrite crawl_found by done. split.
  - intros (item & Hin & Hitem). apply Hp in Hitem. by subst.
  - intros Hin. exists a. split; [done | by apply Hp].
Qed.

Lemma _indexOf_found (a : primitive) (lst : list primitive) :
  0 ≤ R._indexOf lst a 0 ↔ a ∈ lst.
Proof.
  destruct a as [[| |s|]|]; simpl; unfold R.Array_indexOf;
    apply crawl_for; intros item;
    first [ apply nan_test_spec | apply zero_test_spec
          | apply strict_equals_spec; congruence ].
Qed.

Lemma _includes_spec (a : primitive) (lst : list primitive) :
  R._includes a lst = true ↔ a ∈ lst.
Proof. unfold R._includes. rewrite bool_decide_eq_true. apply _indexOf_found. Qed.

Lemma _includes_decide (a : primitive) (lst : list primitive) :
  R._includes a lst = bool_decide (a ∈ lst).
Proof.
  destruct (R._includes a lst) eqn:H; symmetry.
  - apply bool_decide_eq_true, _includes_spec, H.
  - apply bool_decide_eq_false. rewrite <- _includes_spec. congruence.
Qed.

Lemma _filter_spec (fn : primitive → bool) (lst : list primitive) :
  R._filter fn lst = filter (λ x, fn x = true) lst.
Proof.
  induction lst as [|x rest IH]; [done|]. simpl.
  destruct (fn x) eqn:Hx.
  - rewrite filter_cons_True by done. by f_equal.
  - rewrite filter_cons_False by congruence. done.
Qed.

(** [without([a], list)] drops every element equal to [a] and keeps the
    others in place. *)
Lemma without_singleton (a : primitive) (lst : list primitive) :
  R.without [a] lst = filter (λ x, x ≠ a) lst.
Proof.
  unfold R.without, R.reject. rewrite _filter_spec.
  apply list_filter_iff. intros x.
  unfold R._complement, R.flip. rewrite negb_true_iff, _includes_decide.
  rewrite bool_decide_eq_false, list_elem_of_singleton. done.
Qed.

Lemma filter_keeps_all (a : primitive) (lst : list primitive) :
  a ∉ lst → filter (λ x, x ≠ a) lst = lst.
Proof.
  induction lst as [|x rest IH]; [done|]. intros Hout.
  apply not_elem_of_cons in Hout as [Hne Hout].
  rewrite filter_cons_True by congruence. f_equal. by apply IH.
Qed.

Lemma append_spec (el : primitive) (lst : list primitive) :
  R.append el lst = lst ++ [el].
Proof. reflexivity. Qed.

Lemma onChange_native_spec (opt : Option.t) (value : list primitive) :
  onChange_native opt value =
    if decide (Option.value opt ∈ value)
    then filter (λ x, x ≠ Option.value opt) value
    else value ++ [Option.value opt].
Proof.
  unfold onChange_native, R.contains. rewrite _includes_decide.
  case_bool_decide; case_decide; try done.
  apply without_singleton.
Qed.

Lemma onChange_custom_spec (opt : Option.t) (value : list primitive) :
  onChange_custom opt value =
    if decide (Option.value opt ∈ value)
    then filter (λ x, x ≠ Option.value opt) value
    else value ++ [Option.value opt].
Proof.
  unfold onChange_custom, R.contains. rewrite _includes_decide.
  case_bool_decide; case_decide; try done.
  apply without_singleton.
Qed.

Lemma checked_decide (opt : Option.t) (value : list primitive) :
  checked opt value = bool_decide (Option.value opt ∈ value).
Proof. apply _includes_decide. Qed.

(** ** The selection model *)

(** The scenario of the specification: with [value = [1]], toggling "B"
    reports [[1, 2]]; with [[1, 2]] supplied back, toggling "A" reports
    [[2]]. *)
Example toggle_B_then_A :
  onChange_native option_B [int 1] = [int 1; int 2] ∧
  onChange_native option_A [int 1; int 2] = [int 2].
Proof. split; reflexivity. Qed.

(** A value that occurs twice is removed twice. *)
Example toggle_duplicate :
  onChange_native option_A [int 1; int 2; int 1] = [int 2].
Proof. reflexivity. Qed.

(** C1: the toggle computation of the native [onChange] returns the
    selection without any occurrence of the option's value, the other
    elements in their order, when the value is a member of the
    selection, and the selection with the value added at its end when
    it is not. *)
Theorem toggle_removes_or_appends (opt : Option.t) (value : list primitive) :
  onChange_native opt value =
    if decide (Option.value opt ∈ value)
    then filter (λ x, x ≠ Option.value opt) value
    else value ++ [Option.value opt].
Proof. apply onChange_native_spec. Qed.

(** C3: toggling an option inverts whether it is checked. *)
Theorem toggle_inverts_checked (opt : Option.t) (value : list primitive) :
  checked opt (onChange_native opt value) = negb (checked opt value).
Proof.
  rewrite onChange_native_spec, !checked_decide.
  destruct (decide (Option.value opt ∈ value)) as [Hin|Hin].
  - rewrite (bool_decide_true _ Hin). apply bool_decide_eq_false.
    rewrite list_elem_of_filter. tauto.
  - rewrite (bool_decide_false _ Hin). apply bool_decide_eq_true.
    apply elem_of_app. right. apply list_elem_of_singleton. done.
Qed.

(** C7: toggling an option twice gives a selection with the members of
    the one it started from. *)
Theorem toggle_twice_same_members (opt : Option.t) (value : list primitive) :
  ∀ x, x ∈ onChange_native opt (onChange_native opt value) ↔ x ∈ value.
Proof.
  intros x. rewrite (onChange_native_spec opt (onChange_native _ _)).
  rewrite onChange_native_spec.
  destruct (decide (Option.value opt ∈ value)) as [Hin|Hout].
  - rewrite decide_False by (rewrite list_elem_of_filter; tauto).
    rewrite elem_of_app, list_elem_of_filter, list_elem_of_singleton.
    destruct (decide (x = Option.value opt)) as [->|]; tauto.
  - rewrite decide_True
      by (apply elem_of_app; right; by apply list_elem_of_singleton).
    rewrite list_elem_of_filter, elem_of_app, list_elem_of_singleton.
    split; [|intros Hx; split; [congruence | tauto]].
    intros [Hne [Hx|Heq]]; [done | by destruct Hne].
Qed.

(** When the option was not checked, the second toggle even restores the
    sequence. *)
Lemma toggle_twice_unchecked (opt : Option.t) (value : list primitive) :
  checked opt value = false →
  onChange_native opt (onChange_native opt value) = value.
Proof.
  rewrite checked_decide, bool_decide_eq_false. intros Hout.
  rewrite (onChange_native_spec opt (onChange_native _ _)).
  rewrite onChange_native_spec, (decide_False _ _ Hout).
  rewrite decide_True
    by (apply elem_of_app; right; by apply list_elem_of_singleton).
  rewrite filter_app, filter_cons_False, filter_nil, app_nil_r by tauto.
  by apply filter_keeps_all.
Qed.

(** When it was checked, the order can change: the value moves to the
    end. *)
Example toggle_twice_reorders :
  onChange_native option_A (onChange_native option_A [int 1; int 2])
  = [int 2; int 1].
Proof. reflexivity. Qed.

(** C8: an option is checked exactly when its value is a member of the
    selection, where a number and a string are never the same value: a
    numeric value is not checked by a selection of strings, nor a string
    value by a selection of numbers. *)
Theorem checked_iff_member (opt : Option.t) (value : list primitive) :
  (checked opt value = true ↔ Option.value opt ∈ value) ∧
  (Forall (λ x, typeof x ≠ typeof (Option.value opt)) value →
   checked opt value = false).
Proof.
  rewrite checked_decide. split; [apply bool_decide_eq_true|].
  intros Htypes. apply bool_decide_eq_false. intros Hin.
  rewrite Forall_forall in Htypes. by apply (Htypes _ Hin).
Qed.

Example number_not_checked_by_string :
  checked option_A [Str "1"] = false ∧
  checked {| Option.label := Str "A"; Option.value := Str "1";
             Option.disabled := None |} [int 1] = false.
Proof. split; reflexivity. Qed.

(** The zeros are told apart and [NaN] is found, as ramda has it. *)
Example checked_zero_and_nan :
  R.contains (Num (Zero true)) [Num (Zero false)] = false ∧
  R.contains (Num NaN) [Num NaN] = true.
Proof. split; reflexivity. Qed.

(** ** The two closures *)

(** C10: the closure of the custom mode and the closure of the native
    mode compute the same new selection, and whichever mode an item is
    rendered in, its [onChange] reports that selection. *)
Theorem onChange_same_in_both_modes
    (Number_toString : number → string) (p : Props.t) (opt : Option.t) :
  onChange_custom opt (Props.value p) = onChange_native opt (Props.value p) ∧
  item_onChange (listItem Number_toString p opt)
  = Some (JFunction (onChange_native opt (Props.value p))).
Proof.
  split; [reflexivity|].
  unfold listItem.
  destruct (truthy (js_and (of_optional JString (Props.id p))
                           (JBool (Props.custom p)))); reflexivity.
Qed.

(** ** Label style *)

Lemma object_spread_two (base : object) (overlay : option object) (k : string) :
  object_spread [Some base; overlay] !! k =
    match default ∅ overlay !! k with
    | Some v => Some v
    | None => base !! k
    end.
Proof.
  unfold object_spread. simpl. rewrite (right_id_L ∅ (∪)).
  destruct overlay as [o|]; simpl.
  - rewrite lookup_union. destruct (o !! k), (base !! k); done.
  - rewrite lookup_empty. done.
Qed.

(** C5: key by key, the merged label style of a checked item is the
    checked-label style where that has the key and the base label style
    elsewhere; the merged label style of an unchecked item is the base
    label style. *)
Theorem mergedLabelStyle_overlay (p : Props.t) (opt : Option.t) :
  (∀ k, mergedLabelStyle p opt !! k =
        if checked opt (Props.value p)
        then match default ∅ (Props.labelCheckedStyle p) !! k with
             | Some v => Some v
             | None => Props.labelStyle p !! k
             end
        else Props.labelStyle p !! k) ∧
  (checked opt (Props.value p) = false →
   mergedLabelStyle p opt = Props.labelStyle p).
Proof.
  unfold mergedLabelStyle. split.
  - intros k. destruct (checked opt (Props.value p)); [|done].
    apply object_spread_two.
  - intros ->. done.
Qed.

(** Base [{a: 1}] under the checked style [{a: 2, b: 3}]: [{a: 2, b: 3}]
    on a checked item, [{a: 1}] on an unchecked one. *)
Example mergedLabelStyle_a_b :
  mergedLabelStyle
    (styled {["a" := int 1]} (Some {["a" := int 2; "b" := int 3]}) [int 1])
    option_A
  = {["a" := int 2; "b" := int 3]} ∧
  mergedLabelStyle
    (styled {["a" := int 1]} (Some {["a" := int 2; "b" := int 3]}) [int 1])
    option_B
  = {["a" := int 1]}.
Proof. split; by vm_compute. Qed.

(** The merged style is what both modes put on the label. *)
Lemma mergedLabelStyle_rendered
    (Number_toString : number → string) (p : Props.t) (opt : Option.t) :
  match listItem Number_toString p opt with
  | Element CustomInput _ props _ => props !! "labelStyle"
  | Element (host _) _ _ [_; label] => element_props label !! "style"
  | _ => None
  end = Some (JObject (mergedLabelStyle p opt)).
Proof.
  unfold listItem.
  destruct (truthy (js_and (of_optional JString (Props.id p))
                           (JBool (Props.custom p)))); reflexivity.
Qed.

(** ** Loading attribute *)

(** C6: the container's [data-dash-is-loading] is [true] exactly when
    [loading_state] is there with [is_loading] true, and [undefined] in
    every other case; it is never [false]. *)
Theorem data_dash_is_loading_spec
    (Number_toString : number → string) (p : Props.t) :
  element_props (render Number_toString p) !! "data-dash-is-loading"
  = Some (data_dash_is_loading (Props.loading_state p)) ∧
  (data_dash_is_loading (Props.loading_state p) = JBool true ↔
   ∃ state, Props.loading_state p = Some state ∧ is_loading state = Some true) ∧
  (data_dash_is_loading (Props.loading_state p) ≠ JBool true ↔
   data_dash_is_loading (Props.loading_state p) = JUndefined).
Proof.
  split; [reflexivity|].
  destruct (Props.loading_state p) as [[[[]|] ? ?]|]; simpl;
    (split; [split; [try discriminate; eauto |]|split; try done]).
  - intros _. done.
  - intros (state & [= <-] & [=]).
  - intros (state & [= <-] & [=]).
  - intros (state & [=] & _).
Qed.

(** ** Rendering mode *)

Lemma custom_branch_iff (p : Props.t) :
  truthy (js_and (of_optional JString (Props.id p)) (JBool (Props.custom p)))
  = true ↔
  (∃ s, Props.id p = Some s ∧ s ≠ "") ∧ Props.custom p = true.
Proof.
  unfold js_and. destruct (Props.id p) as [s|]; simpl.
  - destruct (decide (s = "")) as [->|Hs]; simpl.
    + split; [discriminate | intros [(s & [= <-] & Hs) _]; done].
    + rewrite (bool_decide_false _ Hs). simpl.
      split; [intros ->; eauto | tauto].
  - split; [discriminate | intros [(s & [=] & _) _]].
Qed.

(** What [CustomInput] is given.  [className] is written twice in the
    JSX (lines 47 and 52); the props hold the second one. *)
Lemma listItem_custom_props
    (Number_toString : number → string) (p : Props.t) (opt : Option.t) (s : string) :
  Props.id p = Some s → s ≠ "" → Props.custom p = true →
  listItem Number_toString p opt =
    Element CustomInput (JPrim (Option.value opt))
      {[ "id" := JString ("_" +:+ s +:+ "-" +:+
                          ToString Number_toString (Option.value opt));
         "checked" := JBool (checked opt (Props.value p));
         "disabled" := JBool (Boolean (Option.disabled opt));
         "type" := JString (if truthy (of_optional JBool (Props.switch p))
                            then "switch" else "checkbox");
         "label" := JPrim (Option.label opt);
         "labelStyle" := JObject (mergedLabelStyle p opt);
         "className" :=
           JString (classNames
                      [Some (Props.labelClassName p);
                       and_class (checked opt (Props.value p))
                                 (Props.labelCheckedClassName p)]);
         "inline" := of_optional JBool (Props.inline p);
         "onChange" := JFunction (onChange_custom opt (Props.value p)) ]}
      [].
Proof.
  intros Hid Hs Hcustom. unfold listItem.
  rewrite (proj2 (custom_branch_iff p)) by eauto.
  rewrite Hid. reflexivity.
Qed.

Lemma listItem_is_custom
    (Number_toString : number → string) (p : Props.t) (opt : Option.t) :
  element_is CustomInput (listItem Number_toString p opt)
  = truthy (js_and (of_optional JString (Props.id p)) (JBool (Props.custom p))).
Proof.
  unfold listItem.
  destruct (truthy (js_and (of_optional JString (Props.id p))
                           (JBool (Props.custom p)))); reflexivity.
Qed.

(** C4 as it is written fails on an [id] that is set to the empty
    string: [id && custom] is falsy, and the item is a native one. *)
Lemma empty_id_renders_native :
  is_Some (Props.id (checklist (Some "") true "" "" [option_A] [])) ∧
  Props.custom (checklist (Some "") true "" "" [option_A] []) = true ∧
  element_is CustomInput
    (listItem digit_toString (checklist (Some "") true "" "" [option_A] [])
              option_A) = false ∧
  element_is (host "div")
    (listItem digit_toString (checklist (Some "") true "" "" [option_A] [])
              option_A) = true.
Proof. repeat split; eauto. Qed.

(** C4, amended: an item is rendered through [CustomInput] exactly when
    [id] is a non-empty string and [custom] is true.  Every other item
    is a native [<div>], the same whatever [switch] is; on a custom item
    [switch] chooses between the kinds ['switch'] and ['checkbox']. *)
Theorem listItem_mode
    (Number_toString : number → string) (p : Props.t) (opt : Option.t) :
  (element_is CustomInput (listItem Number_toString p opt) = true ↔
   (∃ s, Props.id p = Some s ∧ s ≠ "") ∧ Props.custom p = true) ∧
  (element_is CustomInput (listItem Number_toString p opt) = false →
   element_is (host "div") (listItem Number_toString p opt) = true ∧
   ∀ switches,
     listItem Number_toString (with_switch switches p) opt
     = listItem Number_toString p opt) ∧
  (element_is CustomInput (listItem Number_toString p opt) = true →
   element_props (listItem Number_toString p opt) !! "type"
   = Some (JString (if truthy (of_optional JBool (Props.switch p))
                    then "switch" else "checkbox"))).
Proof.
  rewrite listItem_is_custom. split; [apply custom_branch_iff|]. split.
  - intros Hnative. unfold listItem. simpl. rewrite Hnative.
    split; [reflexivity | intros switches; reflexivity].
  - intros Hcustom. unfold listItem. rewrite Hcustom. reflexivity.
Qed.

(** With [custom=true], [id="grp"] and [switch=true] the item is a
    switch; without [switch] it is a checkbox; with [custom=false] it is
    a native checkbox input, switch or not. *)
Example switch_scenarios :
  element_props
    (listItem digit_toString
       (with_switch (Some true)
          (checklist (Some "grp") true "" "" [option_A] [])) option_A)
    !! "type" = Some (JString "switch") ∧
  element_props
    (listItem digit_toString
       (checklist (Some "grp") true "" "" [option_A] []) option_A)
    !! "type" = Some (JString "checkbox") ∧
  listItem digit_toString
    (with_switch (Some true)
       (checklist (Some "grp") false "" "" [option_A] [])) option_A
  = listItem digit_toString
      (checklist (Some "grp") false "" "" [option_A] []) option_A.
Proof. repeat split. Qed.

(** C2, as the code has it: on [<Checklist id="grp" custom
    inputClassName="my-input" labelClassName="lbl" value={[]} />] the
    [CustomInput] of option "A" gets the label class as its [className]
    and [inputClassName] in no prop, although line 47 passes it; the
    native mode does put it on the [<input>]. *)
Theorem inputClassName_lost_in_custom_mode :
  listItem digit_toString
    (checklist (Some "grp") true "my-input" "lbl" [option_A] []) option_A
  = Element CustomInput (JPrim (int 1))
      {[ "id" := JString "_grp-1";
         "checked" := JBool false;
         "disabled" := JBool false;
         "type" := JString "checkbox";
         "label" := JPrim (Str "A");
         "labelStyle" := JObject ∅;
         "className" := JString "lbl";
         "inline" := JUndefined;
         "onChange" := JFunction [int 1] ]}
      [] ∧
  item_onChange
    (listItem digit_toString
       (checklist (Some "grp") false "my-input" "lbl" [option_A] []) option_A)
  = Some (JFunction [int 1]) ∧
  match listItem digit_toString
          (checklist (Some "grp") false "my-input" "lbl" [option_A] [])
          option_A with
  | Element (host "div") _ _ (input :: _) => element_props input !! "className"
  | _ => None
  end = Some (JString "form-check-input my-input").
Proof. repeat split. Qed.

(** ** The caller's array is not written *)

Section store_runs.

Import Store.

Implicit Types (σ : list (list primitive)) (xs acc : list primitive).

Lemma run_array_get σ (l : loc) (idx : nat) xs (x : primitive) :
  σ !! l = Some xs → xs !! idx = Some x →
  array_get l idx σ = Some (x, σ).
Proof.
  intros Hl Hx. unfold array_get, bind, read. by rewrite Hl, Hx.
Qed.

Lemma run_array_set_end σ (l : loc) xs (x : primitive) :
  σ !! l = Some xs →
  array_set_end l x σ = Some (tt, <[l := xs ++ [x]]> σ).
Proof. intros Hl. unfold array_set_end, bind, read. by rewrite Hl. Qed.

Lemma run__includes σ (a : primitive) (l : loc) xs :
  σ !! l = Some xs → Store._includes a l σ = Some (R._includes a xs, σ).
Proof. intros Hl. unfold Store._includes, bind, read, ret. by rewrite Hl. Qed.

(** The loop of [_filter] writes the cell of [result] and no other. *)
Lemma run__filter_loop (fn : primitive → M bool) (f : primitive → bool)
    σ (lst result : loc) xs :
  σ !! lst = Some xs → (result < length σ)%nat → lst ≠ result →
  (∀ acc x, fn x (<[result := acc]> σ) = Some (f x, <[result := acc]> σ)) →
  ∀ (n idx : nat) acc,
    (idx + n ≤ length xs)%nat →
    _filter_loop fn lst result idx n (<[result := acc]> σ)
    = Some (tt, <[result := acc ++ R._filter f (take n (drop idx xs))]> σ).
Proof.
  intros Hlst Hresult Hne Hfn. induction n as [|n IH]; intros idx acc Hlen.
  - simpl. unfold ret. by rewrite app_nil_r.
  - destruct (lookup_lt_is_Some_2 xs idx) as [x Hx]; [lia|].
    rewrite (drop_S _ _ _ Hx). simpl. unfold bind at 1.
    rewrite (run_array_get _ _ _ xs x);
      [|by rewrite list_lookup_insert_ne | done].
    unfold bind at 1. rewrite Hfn. unfold bind at 1.
    destruct (f x).
    + rewrite (run_array_set_end _ _ acc)
        by (by apply list_lookup_insert_eq).
      rewrite list_insert_insert_eq, IH by lia. by rewrite <- app_assoc.
    + unfold ret. apply IH. lia.
Qed.

Lemma run__filter (fn : primitive → M bool) (f : primitive → bool)
    σ (lst : loc) xs :
  σ !! lst = Some xs →
  (∀ acc x, fn x (σ ++ [acc]) = Some (f x, σ ++ [acc])) →
  Store._filter fn lst σ = Some (length σ, σ ++ [R._filter f xs]).
Proof.
  intros Hlst Hfn.
  assert (Hcell : ∀ acc, <[length σ := acc]> (σ ++ [[]]) = σ ++ [acc]).
  { intros acc. rewrite insert_app_r_alt, Nat.sub_diag by lia. done. }
  unfold Store._filter, bind at 1, array_length, bind, read, ret.
  rewrite Hlst. unfold array_literal.
  rewrite <- (Hcell []) at 1.
  rewrite (run__filter_loop fn f (σ ++ [[]]) lst (length σ) xs).
  - rewrite drop_0, firstn_all, Hcell. done.
  - rewrite lookup_app_l; [done | by eapply lookup_lt_Some].
  - rewrite length_app. simpl. lia.
  - apply lookup_lt_Some in Hlst. lia.
  - intros acc x. rewrite Hcell. apply Hfn.
  - simpl. lia.
Qed.

Lemma run_without σ (xs lst : loc) (ys zs : list primitive) :
  σ !! xs = Some ys → σ !! lst = Some zs →
  Store.without xs lst σ = Some (length σ, σ ++ [R.without ys zs]).
Proof.
  intros Hxs Hlst. unfold Store.without, Store.reject.
  apply run__filter; [done|]. intros acc x.
  unfold Store._complement, R.flip, bind.
  rewrite (run__includes _ _ _ ys); [done|].
  rewrite lookup_app_l; [done | by eapply lookup_lt_Some].
Qed.

(** So does a loop of [_concat]. *)
Lemma run__concat_loop σ (set result : loc) xs :
  σ !! set = Some xs → (result < length σ)%nat → set ≠ result →
  ∀ (n idx : nat) acc,
    (idx + n ≤ length xs)%nat →
    _concat_loop set result idx n (<[result := acc]> σ)
    = Some (tt, <[result := acc ++ take n (drop idx xs)]> σ).
Proof.
  intros Hset Hresult Hne. induction n as [|n IH]; intros idx acc Hlen.
  - simpl. unfold ret. by rewrite app_nil_r.
  - destruct (lookup_lt_is_Some_2 xs idx) as [x Hx]; [lia|].
    rewrite (drop_S _ _ _ Hx). simpl. unfold bind at 1.
    rewrite (run_array_get _ _ _ xs x);
      [|by rewrite list_lookup_insert_ne | done].
    unfold bind at 1.
    rewrite (run_array_set_end _ _ acc) by (by apply list_lookup_insert_eq).
    rewrite list_insert_insert_eq, IH by lia. by rewrite <- app_assoc.
Qed.

Lemma run__concat σ (set1 set2 : loc) (xs ys : list primitive) :
  σ !! set1 = Some xs → σ !! set2 = Some ys →
  Store._concat set1 set2 σ = Some (length σ, σ ++ [R._concat xs ys]).
Proof.
  intros H1 H2.
  assert (Hcell : ∀ acc, <[length σ := acc]> (σ ++ [[]]) = σ ++ [acc]).
  { intros acc. rewrite insert_app_r_alt, Nat.sub_diag by lia. done. }
  assert (Hold : ∀ l zs, σ !! l = Some zs →
                 (σ ++ [[]]) !! l = Some zs ∧ l ≠ length σ).
  { intros l zs Hl. pose proof (lookup_lt_Some _ _ _ Hl).
    split; [by rewrite lookup_app_l | lia]. }
  assert (Hlen : (length σ < length (σ ++ [[]]))%nat).
  { rewrite length_app. simpl. lia. }
  unfold Store._concat, bind at 1, array_length, bind at 1, read, ret.
  rewrite H1. unfold bind at 1, bind at 1. rewrite H2.
  unfold bind at 1, array_literal. rewrite <- (Hcell []) at 1.
  destruct (Hold _ _ H1) as [H1' Hne1], (Hold _ _ H2) as [H2' Hne2].
  unfold bind at 1.
  rewrite (run__concat_loop _ _ _ xs H1' Hlen Hne1) by (simpl; lia).
  unfold bind at 1.
  rewrite (run__concat_loop _ _ _ ys H2' Hlen Hne2) by (simpl; lia).
  rewrite !drop_0, !firstn_all, Hcell. done.
Qed.

Lemma run_append σ (el : primitive) (lst : loc) xs :
  σ !! lst = Some xs →
  Store.append el lst σ
  = Some (S (length σ), σ ++ [[el]; R.append el xs]).
Proof.
  intros Hlst. pose proof (lookup_lt_Some _ _ _ Hlst).
  unfold Store.append, bind, array_literal.
  rewrite (run__concat _ _ _ xs [el]).
  - rewrite length_app, <- app_assoc. simpl. do 3 f_equal. lia.
  - by rewrite lookup_app_l.
  - rewrite lookup_app_r, Nat.sub_diag by lia. done.
Qed.

(** A run of the closure allocates the literal [[option.value]] and the
    new selection, in this order, behind the arrays that are there. *)
Lemma run_onChange σ (opt : Option.t) (value : loc) xs :
  σ !! value = Some xs →
  Store.onChange opt value σ
  = Some (S (length σ), σ ++ [[Option.value opt]; onChange_native opt xs]).
Proof.
  intros Hvalue. pose proof (lookup_lt_Some _ _ _ Hvalue).
  unfold Store.onChange, bind at 1, Store.contains.
  rewrite (run__includes _ _ _ xs Hvalue).
  unfold onChange_native, R.contains.
  destruct (R._includes (Option.value opt) xs).
  - unfold bind, array_literal.
    rewrite (run_without _ _ _ [Option.value opt] xs).
    + rewrite length_app, <- app_assoc. simpl. do 3 f_equal. lia.
    + rewrite lookup_app_r, Nat.sub_diag by lia. done.
    + by rewrite lookup_app_l.
  - by apply run_append.
Qed.

End store_runs.

(** C9: a run of the closure on a store in which [value] is the array
    [xs] ends; after it [value] is still [xs], as every array of the
    store is what it was; the new selection is another array than
    [value], and it holds what the toggle computes from [xs]. *)
Theorem onChange_leaves_value
    (opt : Option.t) (σ : list (list primitive)) (value : Store.loc)
    (xs : list primitive) :
  σ !! value = Some xs →
  ∃ (newValue : Store.loc) (σ' : list (list primitive)),
    Store.onChange opt value σ = Some (newValue, σ') ∧
    σ' !! value = Some xs ∧
    (∀ (l : Store.loc) (ys : list primitive),
       σ !! l = Some ys → σ' !! l = Some ys) ∧
    newValue ≠ value ∧
    σ !! newValue = None ∧
    σ' !! newValue = Some (onChange_native opt xs).
Proof.
  intros Hvalue. pose proof (lookup_lt_Some _ _ _ Hvalue).
  eexists _, _. split; [by apply run_onChange|].
  assert (Hold : ∀ (l : Store.loc) (ys : list primitive),
            σ !! l = Some ys →
            (σ ++ [[Option.value opt]; onChange_native opt xs]) !! l = Some ys).
  { intros l ys Hl. rewrite lookup_app_l; [done | by eapply lookup_lt_Some]. }
  repeat split.
  - by apply Hold.
  - exact Hold.
  - lia.
  - apply lookup_ge_None. lia.
  - rewrite lookup_app_r by lia.
    by replace (S (length σ) - length σ)%nat with 1%nat by lia.
Qed.

(** With [value = [1]] in the first cell, toggling "B". *)
Lemma onChange_leaves_value_witness :
  [[int 1]] !! 0%nat = Some [int 1] ∧
  ∃ (newValue : Store.loc) (σ' : list (list primitive)),
    Store.onChange option_B 0%nat [[int 1]] = Some (newValue, σ') ∧
    σ' !! 0%nat = Some [int 1] ∧
    (∀ (l : Store.loc) (ys : list primitive),
       [[int 1]] !! l = Some ys → σ' !! l = Some ys) ∧
    newValue ≠ 0%nat ∧
    [[int 1]] !! newValue = None ∧
    σ' !! newValue = Some (onChange_native option_B [int 1]).
Proof.
  split; [reflexivity|].
  apply (onChange_leaves_value option_B [[int 1]] 0%nat [int 1]).
  reflexivity.
Defined.

Example run_toggle_B :
  Store.onChange option_B 0%nat [[int 1]]
  = Some (2%nat, [[int 1]; [int 2]; [int 1; int 2]]).
Proof. reflexivity. Qed.

(** * Further properties of the component *)

(** ** The selection after a toggle *)

Lemma checked_decide_true (opt : Option.t) (value : list primitive) :
  checked opt value = true → Option.value opt ∈ value.
Proof. rewrite checked_decide. apply bool_decide_eq_true. Qed.

(** Membership after a toggle: the option's value is in exactly when it
    was out, and every other value is where it was. *)
Lemma elem_of_onChange (opt : Option.t) (value : list primitive) (x : primitive) :
  x ∈ onChange_native opt value ↔
  if decide (x = Option.value opt) then Option.value opt ∉ value else x ∈ value.
Proof.
  rewrite onChange_native_spec.
  destruct (decide (Option.value opt ∈ value)) as [Hin|Hout].
  - rewrite list_elem_of_filter. case_decide; subst; tauto.
  - rewrite elem_of_app, list_elem_of_singleton. case_decide; subst; tauto.
Qed.

(** X1: a toggle never reports the selection it started from: on an
    unchecked option the new selection is one longer, on a checked one it
    is shorter. *)
Theorem onChange_changes_value (opt : Option.t) (value : list primitive) :
  onChange_native opt value ≠ value ∧
  (checked opt value = false →
   length (onChange_native opt value) = S (length value)) ∧
  (checked opt value = true →
   (length (onChange_native opt value) < length value)%nat).
Proof.
  assert (Hlen :
    (checked opt value = false →
     length (onChange_native opt value) = S (length value)) ∧
    (checked opt value = true →
     (length (onChange_native opt value) < length value)%nat)).
  { rewrite onChange_native_spec, checked_decide. split.
    - intros Hout%bool_decide_eq_false. rewrite decide_False by done.
      rewrite length_app. simpl. lia.
    - intros Hin%bool_decide_eq_true. rewrite decide_True by done.
      apply (length_filter_lt _ _ (Option.value opt)); [done | tauto]. }
  split; [|exact Hlen]. intros Heq. destruct Hlen as [Hout Hin].
  destruct (checked opt value); [specialize (Hin eq_refl)|specialize (Hout eq_refl)];
    rewrite Heq in *; lia.
Qed.

(** X2: a toggle leaves the entries that are not the option's value as
    they were, in order and number. *)
Theorem onChange_keeps_others (opt : Option.t) (value : list primitive) :
  filter (λ x, x ≠ Option.value opt) (onChange_native opt value)
  = filter (λ x, x ≠ Option.value opt) value.
Proof.
  rewrite onChange_native_spec. case_decide.
  - rewrite list_filter_filter. apply list_filter_iff. tauto.
  - rewrite filter_app, filter_cons_False, filter_nil, app_nil_r by tauto.
    done.
Qed.

(** X3: toggling one option does not change whether an option with
    another value is checked. *)
Theorem onChange_other_checked (opt other : Option.t) (value : list primitive) :
  Option.value other ≠ Option.value opt →
  checked other (onChange_native opt value) = checked other value.
Proof.
  intros Hne. rewrite !checked_decide. apply bool_decide_ext.
  rewrite elem_of_onChange. by rewrite decide_False.
Qed.

Lemma onChange_other_checked_witness :
  Option.value option_A ≠ Option.value option_B ∧
  checked option_A (onChange_native option_B [int 1])
  = checked option_A [int 1].
Proof.
  split; [discriminate|].
  apply (onChange_other_checked option_B option_A [int 1]). discriminate.
Defined.

(** X4: toggling two options in either order gives selections with the
    same members. *)
Theorem onChange_commutes_members (a b : Option.t) (value : list primitive) :
  ∀ x, x ∈ onChange_native a (onChange_native b value) ↔
       x ∈ onChange_native b (onChange_native a value).
Proof.
  intros x.
  pose proof (elem_of_onChange a (onChange_native b value) x) as Hab.
  pose proof (elem_of_onChange b (onChange_native a value) x) as Hba.
  pose proof (elem_of_onChange b value x) as Hbx.
  pose proof (elem_of_onChange a value x) as Hax.
  pose proof (elem_of_onChange b value (Option.value a)) as Hb.
  pose proof (elem_of_onChange a value (Option.value b)) as Ha.
  destruct (decide (Option.value a = Option.value b)) as [Heq|Hne].
  - rewrite <- Heq in *. repeat case_decide; first [congruence | tauto].
  - repeat case_decide; first [congruence | tauto].
Qed.

(** The order can differ: both values are appended, each after the
    other. *)
Example onChange_order_differs :
  onChange_native option_A (onChange_native option_B []) = [int 2; int 1] ∧
  onChange_native option_B (onChange_native option_A []) = [int 1; int 2].
Proof. split; reflexivity. Qed.

(** X5: a selection without repeated entries stays without repeated
    entries under a toggle. *)
Theorem onChange_NoDup (opt : Option.t) (value : list primitive) :
  NoDup value → NoDup (onChange_native opt value).
Proof.
  intros Hnodup. rewrite onChange_native_spec. case_decide as Hin.
  - by apply NoDup_filter.
  - apply NoDup_app. split; [done|]. split; [|apply NoDup_singleton].
    intros x Hx ->%list_elem_of_singleton. done.
Qed.

Lemma onChange_NoDup_witness :
  NoDup [int 1; int 2] ∧ NoDup (onChange_native option_A [int 1; int 2]).
Proof.
  assert (H : NoDup [int 1; int 2]).
  { apply NoDup_cons. split; [|apply NoDup_singleton].
    intros Hin%list_elem_of_singleton. discriminate. }
  split; [exact H | apply (onChange_NoDup option_A [int 1; int 2] H)].
Defined.

(** X6: from the first toggle on, two more toggles of the same option
    give the same sequence back: the third toggle reports what the first
    one did. *)
Theorem onChange_three_times (opt : Option.t) (value : list primitive) :
  onChange_native opt (onChange_native opt (onChange_native opt value))
  = onChange_native opt value.
Proof.
  destruct (checked opt value) eqn:Hchecked.
  - apply toggle_twice_unchecked.
    rewrite checked_decide, bool_decide_eq_false, elem_of_onChange.
    rewrite decide_True by done.
    apply checked_decide_true in Hchecked. tauto.
  - by rewrite (toggle_twice_unchecked opt value Hchecked).
Qed.

(** ** The rendered list *)



(** X8: in custom mode two options get the same [id] on their
    [CustomInput] exactly when their values have the same string form;
    so the ids of a number and of the string of its digits coincide. *)
Theorem custom_id_same_iff
    (Number_toString : number → string) (p : Props.t) (opt1 opt2 : Option.t) :
  element_is CustomInput (listItem Number_toString p opt1) = true →
  element_props (listItem Number_toString p opt1) !! "id"
  = element_props (listItem Number_toString p opt2) !! "id" ↔
  ToString Number_toString (Option.value opt1)
  = ToString Number_toString (Option.value opt2).
Proof.
  rewrite listItem_is_custom. intros Hcustom.
  destruct (proj1 (custom_branch_iff p) Hcustom) as [(s & Hid & Hs) Hc].
  rewrite !(listItem_custom_props _ _ _ s Hid Hs Hc). simpl.
  rewrite !lookup_insert_eq. split.
  - intros [= Heq]. revert Heq.
    repeat (intros Heq; apply (inj (String.app _)) in Heq; revert Heq).
    done.
  - intros ->. done.
Qed.

Lemma custom_id_same_iff_witness :
  element_is CustomInput
    (listItem digit_toString
       (checklist (Some "grp") true "" "" [] []) option_A) = true ∧
  (element_props
     (listItem digit_toString
        (checklist (Some "grp") true "" "" [] []) option_A) !! "id"
   = element_props
       (listItem digit_toString
          (checklist (Some "grp") true "" "" [] [])
          {| Option.label := Str "one"; Option.value := Str "1";
             Option.disabled := None |}) !! "id" ↔
   ToString digit_toString (Option.value option_A)
   = ToString digit_toString
       (Option.value
          {| Option.label := Str "one"; Option.value := Str "1";
             Option.disabled := None |})).
Proof.
  split; [reflexivity|].
  apply (custom_id_same_iff digit_toString
           (checklist (Some "grp") true "" "" [] []) option_A).
  reflexivity.
Defined.

(** The ids of the values [1] and ["1"] are both ["_grp-1"]. *)
Example custom_id_collision :
  element_props
    (listItem digit_toString (checklist (Some "grp") true "" "" [] [])
       option_A) !! "id"
  = element_props
      (listItem digit_toString (checklist (Some "grp") true "" "" [] [])
         {| Option.label := Str "one"; Option.value := Str "1";
            Option.disabled := None |}) !! "id".
Proof. reflexivity. Qed.

(** X9: in custom mode the item is the same whatever [inputStyle] and
    [inputClassName] are: neither reaches the [CustomInput]. *)
Theorem custom_ignores_input_props
    (Number_toString : number → string) (p : Props.t) (opt : Option.t)
    (inputStyle : object) (inputClassName : string) :
  element_is CustomInput (listItem Number_toString p opt) = true →
  listItem Number_toString (with_input inputStyle inputClassName p) opt
  = listItem Number_toString p opt.
Proof.
  rewrite listItem_is_custom. intros Hcustom.
  unfold listItem. simpl. rewrite Hcustom. reflexivity.
Qed.

Lemma custom_ignores_input_props_witness :
  element_is CustomInput
    (listItem digit_toString
       (checklist (Some "grp") true "" "lbl" [] []) option_A) = true ∧
  listItem digit_toString
    (with_input {["color" := Str "red"]} "my-input"
       (checklist (Some "grp") true "" "lbl" [] [])) option_A
  = listItem digit_toString
      (checklist (Some "grp") true "" "lbl" [] []) option_A.
Proof.
  split; [reflexivity|].
  apply (custom_ignores_input_props digit_toString
           (checklist (Some "grp") true "" "lbl" [] []) option_A).
  reflexivity.
Defined.




(** X11: in either mode the control of an item is checked exactly when
    the option's value is in the selection, and disabled exactly when
    the option's [disabled] is true; [disabled] is always a boolean. *)
Theorem item_checked_disabled
    (Number_toString : number → string) (p : Props.t) (opt : Option.t) :
  item_control (listItem Number_toString p opt) !! "checked"
  = Some (JBool (bool_decide (Option.value opt ∈ Props.value p))) ∧
  item_control (listItem Number_toString p opt) !! "disabled"
  = Some (JBool (bool_decide (Option.disabled opt = Some true))).
Proof.
  rewrite <- checked_decide.
  replace (bool_decide (Option.disabled opt = Some true))
    with (Boolean (Option.disabled opt))
    by (by destruct (Option.disabled opt) as [[]|]).
  unfold listItem.
  destruct (truthy (js_and (of_optional JString (Props.id p))
                           (JBool (Props.custom p)))); split; reflexivity.
Qed.

(** X12: an unchecked item is the same whatever [labelCheckedStyle] and
    [labelCheckedClassName] are. *)
Theorem unchecked_ignores_checked_label
    (Number_toString : number → string) (p : Props.t) (opt : Option.t)
    (labelCheckedStyle : option object) (labelCheckedClassName : option string) :
  checked opt (Props.value p) = false →
  listItem Number_toString
    (with_checked_label labelCheckedStyle labelCheckedClassName p) opt
  = listItem Number_toString p opt.
Proof.
  intros Hunchecked. unfold listItem, mergedLabelStyle. simpl.
  rewrite Hunchecked. reflexivity.
Qed.

Lemma unchecked_ignores_checked_label_witness :
  checked option_B (Props.value (checklist None true "" "lbl" [] [int 1]))
  = false ∧
  listItem digit_toString
    (with_checked_label (Some {["color" := Str "red"]}) (Some "on")
       (checklist None true "" "lbl" [] [int 1])) option_B
  = listItem digit_toString (checklist None true "" "lbl" [] [int 1]) option_B.
Proof.
  split; [reflexivity|].
  apply (unchecked_ignores_checked_label digit_toString
           (checklist None true "" "lbl" [] [int 1]) option_B).
  reflexivity.
Defined.

(** X13: the [disabled] of an option changes the [disabled] prop of its
    control and nothing else: the item keeps its key, its label, its
    checked state and its [onChange], which still computes the toggle. *)
Theorem disabled_changes_disabled_only
    (Number_toString : number → string) (p : Props.t) (opt : Option.t)
    (disabled : option bool) :
  item_control (listItem Number_toString p (with_disabled disabled opt))
  = <["disabled" := JBool (Boolean disabled)]>
      (item_control (listItem Number_toString p opt)) ∧
  element_key (listItem Number_toString p (with_disabled disabled opt))
  = element_key (listItem Number_toString p opt) ∧
  item_label (listItem Number_toString p (with_disabled disabled opt))
  = Some (JPrim (Option.label opt)) ∧
  item_onChange (listItem Number_toString p (with_disabled disabled opt))
  = Some (JFunction (onChange_native opt (Props.value p))).
Proof.
  unfold listItem.
  destruct (truthy (js_and (of_optional JString (Props.id p))
                           (JBool (Props.custom p)))); repeat split.
Qed.
